(** * Shallow embedding of the email-consolidation agent's navigation state machine

    Sources: src/utils.py (determine_navigation_method, verify_login_success),
    src/graph.py (routing predicates and edges), src/nodes.py (the eight graph
    nodes), src/state.py (OverallState). *)

From Stdlib Require Import String Ascii List Bool ZArith Lia.
Import ListNotations.
Open Scope string_scope.
Open Scope Z_scope.

(** ** Python exceptions and fallible results *)

(** The exceptions the nodes can raise, with their [str(e)]. *)
Inductive exn : Type :=
| TimeoutError (msg : string)     (* builtin TimeoutError *)
| KeyError (key : string)         (* state["key"] on a missing key *)
| AttributeError (msg : string)   (* e.g. None.startswith *)
| TypeError (msg : string)        (* bad call signature *)
| BrowserError (msg : string)     (* any Playwright failure *)
| ClassifierError (msg : string). (* any LLM / structured-output failure *)

Definition exn_str (e : exn) : string :=
  match e with
  | KeyError k => "'" ++ k ++ "'"     (* str(KeyError(k)) is repr(k) *)
  | TimeoutError m | AttributeError m | TypeError m
  | BrowserError m | ClassifierError m => m
  end.

Inductive outcome (A : Type) : Type :=
| Ok (a : A)
| Raise (e : exn).
Arguments Ok {A} a.
Arguments Raise {A} e.

Definition bind {A B} (m : outcome A) (f : A -> outcome B) : outcome B :=
  match m with Ok a => f a | Raise e => Raise e end.

Notation "x <- m ;; k" := (bind m (fun x => k))
  (at level 61, m at next level, right associativity).

(** ** Strings: [str.lower] and [str.startswith]

    Strings are byte strings read as Latin-1 code points; [str.lower] maps
    A-Z and the Latin-1 capitals (192..222 except 215) to lower case. *)

Definition lower_char (c : ascii) : ascii :=
  let n := nat_of_ascii c in
  if ((65 <=? n) && (n <=? 90))%nat
     || ((192 <=? n) && (n <=? 222) && negb (n =? 215))%nat
  then ascii_of_nat (n + 32)
  else c.

Fixpoint lower (s : string) : string :=
  match s with
  | EmptyString => EmptyString
  | String c s' => String (lower_char c) (lower s')
  end.

(** [s.startswith((p1, p2, ...))] *)
Definition startswith_any (s : string) (ps : list string) : bool :=
  existsb (fun p => String.prefix p s) ps.

(** [x in [a, b, ...]] for strings *)
Definition str_in (x : string) (l : list string) : bool :=
  existsb (String.eqb x) l.

(** Python truthiness of an [Optional[str]]: [None] and [""] are falsy. *)
Definition truthy (o : option string) : bool :=
  match o with
  | None => false
  | Some s => negb (String.eqb s "")
  end.

(** ** utils.determine_navigation_method *)

(** [Literal["url", "click"]] *)
Inductive nav_method : Type := NavUrl | NavClick.

Definition determine_navigation_method (href : option string) : nav_method :=
  match href with
  | None => NavClick
  | Some h =>
      if String.eqb h "" then NavClick
      else
        let href_lower := lower h in
        if str_in href_lower ["#"; "javascript:void(0)"; "javascript:;"] then NavClick
        else if startswith_any href_lower ["http://"; "https://"; "/"] then NavUrl
        else NavClick
  end.

(** The resolver as §4.1 of the spec words it: rules 1-4 in order, with
    case-insensitive comparison done character by character.  Used only to
    be compared with [determine_navigation_method]. *)
Definition ci_char_eqb (a b : ascii) : bool := Ascii.eqb (lower_char a) (lower_char b).

Fixpoint ci_eqb (s t : string) : bool :=
  match s, t with
  | EmptyString, EmptyString => true
  | String a s', String b t' => ci_char_eqb a b && ci_eqb s' t'
  | _, _ => false
  end.

Fixpoint ci_prefix (p s : string) : bool :=
  match p, s with
  | EmptyString, _ => true
  | String a p', String b s' => ci_char_eqb a b && ci_prefix p' s'
  | String _ _, EmptyString => false
  end.

Definition resolve_spec (href : option string) : nav_method :=
  match href with
  | None => NavClick
  | Some h =>
      if String.eqb h "" then NavClick
      else if existsb (ci_eqb h) ["#"; "javascript:void(0)"; "javascript:;"] then NavClick
      else if existsb (fun p => ci_prefix p h) ["http://"; "https://"; "/"] then NavUrl
      else NavClick
  end.

(** ** utils.verify_login_success *)

(** [sub in s] *)
Definition contains (s sub : string) : bool :=
  match String.index 0 sub s with Some _ => true | None => false end.

(** The three [page.evaluate] probes (Checks 2-4); each may raise. *)
Record login_probes : Type := {
  probe_form_disappeared : outcome bool;
  probe_no_errors : outcome bool;
  probe_success_indicators : outcome bool }.

(** Check 1 *)
Definition url_changed (initial_url new_url : string) : bool :=
  negb (String.eqb new_url initial_url) && negb (contains (lower new_url) "/login").

(** "Decision logic: require multiple positive signals" *)
Definition login_decision (url_changed form_disappeared no_errors success_indicators : bool) : bool :=
  (url_changed && no_errors) ||
  (form_disappeared && no_errors) ||
  (success_indicators && no_errors && (url_changed || form_disappeared)).

Definition verify_login_success (initial_url new_url : string) (p : login_probes) : bool :=
  let body :=
    form_disappeared <- probe_form_disappeared p ;;
    no_errors <- probe_no_errors p ;;
    success_indicators <- probe_success_indicators p ;;
    Ok (login_decision (url_changed initial_url new_url)
          form_disappeared no_errors success_indicators) in
  match body with
  | Ok success => success
  | Raise _ => false   (* "If verification fails, default to False (safer)" *)
  end.

(** The formula of spec §4.3. *)
Definition verify_spec (urlChanged formGone noErrorsShown successCuesPresent : bool) : bool :=
  (urlChanged && noErrorsShown) || (formGone && noErrorsShown)
  || (successCuesPresent && noErrorsShown && (urlChanged || formGone)).

(** ** state.OverallState

    A [TypedDict]: every key may be absent ([None] here); [url_history]
    carries the [operator.add] reducer and starts empty. *)
Record OverallState : Type := mkState {
  website_name : string;
  initial_url : option string;
  output_status : option string;
  current_url : option string;
  navigation_method : option nav_method;
  is_login_page_reached : option bool;
  username_selector : option string;
  password_selector : option string;
  submit_selector : option string;
  url_history : list string;
  retry_count : option Z;
  next_action_location : option string;
  login_href : option string;
  login_success : option bool;
  error : option string }.

(** One key of the dict a node returns. *)
Inductive assign : Type :=
| Set_initial_url (v : option string)
| Set_output_status (v : string)
| Set_current_url (v : string)
| Set_navigation_method (v : nav_method)
| Set_is_login_page_reached (v : bool)
| Set_username_selector (v : string)
| Set_password_selector (v : string)
| Set_submit_selector (v : string)
| Add_url_history (v : list string)
| Set_retry_count (v : Z)
| Set_next_action_location (v : option string)
| Set_login_href (v : option string)
| Set_login_success (v : bool)
| Set_error (v : string)
| Set_is_change_email_section_reached (v : bool).

(** A node's return value. *)
Definition update := list assign.

(** Merging one key: last-value channels are overwritten, [url_history] is
    concatenated ([operator.add]).  The graph's channels are the keys of
    state.py's schemas; [is_change_email_section_reached] is not one of
    them, so LangGraph discards that key of a node's result. *)
Definition apply_assign (s : OverallState) (a : assign) : OverallState :=
  let '(mkState wn iu os cu nm lr us ps ss uh rc nal lh ls er) := s in
  match a with
  | Set_initial_url v => mkState wn v os cu nm lr us ps ss uh rc nal lh ls er
  | Set_output_status v => mkState wn iu (Some v) cu nm lr us ps ss uh rc nal lh ls er
  | Set_current_url v => mkState wn iu os (Some v) nm lr us ps ss uh rc nal lh ls er
  | Set_navigation_method v => mkState wn iu os cu (Some v) lr us ps ss uh rc nal lh ls er
  | Set_is_login_page_reached v => mkState wn iu os cu nm (Some v) us ps ss uh rc nal lh ls er
  | Set_username_selector v => mkState wn iu os cu nm lr (Some v) ps ss uh rc nal lh ls er
  | Set_password_selector v => mkState wn iu os cu nm lr us (Some v) ss uh rc nal lh ls er
  | Set_submit_selector v => mkState wn iu os cu nm lr us ps (Some v) uh rc nal lh ls er
  | Add_url_history v => mkState wn iu os cu nm lr us ps ss (uh ++ v)%list rc nal lh ls er
  | Set_retry_count v => mkState wn iu os cu nm lr us ps ss uh (Some v) nal lh ls er
  | Set_next_action_location v => mkState wn iu os cu nm lr us ps ss uh rc v lh ls er
  | Set_login_href v => mkState wn iu os cu nm lr us ps ss uh rc nal v ls er
  | Set_login_success v => mkState wn iu os cu nm lr us ps ss uh rc nal lh (Some v) er
  | Set_error v => mkState wn iu os cu nm lr us ps ss uh rc nal lh ls (Some v)
  | Set_is_change_email_section_reached _ => mkState wn iu os cu nm lr us ps ss uh rc nal lh ls er
  end.

Definition apply_update (s : OverallState) (u : update) : OverallState :=
  fold_left apply_assign u s.

(** The graph input [{"website_name": ..., "initial_url": ...}]. *)
Definition input_state (name : string) (url : option string) : OverallState :=
  mkState name url None None None None None None None [] None None None None None.

(** ** graph.py: conditional edges *)

Definition is_url_missing (s : OverallState) : bool :=
  match initial_url s with None => true | Some _ => false end.

(** [not state["is_login_page_reached"] and state["retry_count"] < 3];
    [and] short-circuits, so [retry_count] is read only when not reached. *)
Definition should_retry_look_for_login (s : OverallState) : outcome bool :=
  match is_login_page_reached s with
  | None => Raise (KeyError "is_login_page_reached")
  | Some true => Ok false
  | Some false =>
      match retry_count s with
      | None => Raise (KeyError "retry_count")
      | Some c => Ok (c <? 3)
      end
  end.

(** [state.get("is_change_email_section_reached", False)]: the key is not
    declared in state.py's OverallState, so the graph state never holds it
    (see [apply_assign]) and [get] returns its default. *)
Definition get_is_change_email_section_reached (s : OverallState) : bool := false.

(** [not state.get("is_change_email_section_reached", False)
     and state.get("retry_count", 0) < 3] *)
Definition should_retry_change_email_section (s : OverallState) : bool :=
  negb (get_is_change_email_section_reached s)
  && (match retry_count s with Some c => c | None => 0 end <? 3).

(** ** External collaborators *)

(** context.ContextSchema: the fields the nodes read. *)
Record ContextSchema : Type := {
  debug_mode : bool;
  username : option string;   (* os.getenv may give None *)
  password : option string }.

(** Browser interactions the nodes perform. *)
Inductive action : Type :=
| Goto (url : string)                   (* page.goto(url, ...) *)
| Click (selector : string)             (* page.click(selector, ...) *)
| ClickText (text : string)             (* page.get_by_text(text).first.click(...) *)
| Fill (selector value : string).       (* page.fill(selector, value, ...) *)

(** models/llm.py structured outputs. *)
Record CSSSelector : Type := {
  sel_selector : string;
  sel_href : option string;
  sel_text : string }.

Record PageAnalysis : Type := {
  pa_is_page_reached : bool;
  pa_username_selector : string;
  pa_password_selector : string;
  pa_submit_selector : string }.

Record ChangeEmailSectionAnalysis : Type := {
  ea_is_page_reached : bool;
  ea_next_action_location : string }.

(** The behaviour of the browser and of the classifier, as seen by the node
    executed at step [k] of the run; any stub is a [World]. *)
Record World : Type := {
  w_evaluate : nat -> outcome unit;             (* DOM-extraction page.evaluate *)
  w_browse : nat -> action -> outcome unit;     (* may raise *)
  w_url_before : nat -> string;                 (* page.url when the node starts *)
  w_url_after : nat -> string;                  (* page.url after its interactions *)
  w_locate_login : nat -> outcome CSSSelector;
  w_judge_login : nat -> outcome PageAnalysis;
  w_locate_change_email : nat -> outcome CSSSelector;
  w_judge_change_email : nat -> outcome ChangeEmailSectionAnalysis;
  w_login_probes : nat -> login_probes }.

(** [state["key"]] *)
Definition req {A} (key : string) (o : option A) : outcome A :=
  match o with Some v => Ok v | None => Raise (KeyError key) end.

Section Nodes.

(** [urllib.parse.urljoin] *)
Variable urljoin : string -> string -> string.

Variable ctx : ContextSchema.
Variable w : World.

(** The responses hard-coded for [debug_mode] ("TEMPORARY"). *)
Definition debug_login_selector : CSSSelector :=
  {| sel_selector := ".login"; sel_href := Some "https://www.agrosemens.com/mon-compte";
     sel_text := "" |}.
Definition debug_page_analysis : PageAnalysis :=
  {| pa_is_page_reached := true; pa_username_selector := "input[id='email']";
     pa_password_selector := "input[id='passwd']";
     pa_submit_selector := "input[id='SubmitLogin'][value='Identifiez-vous']" |}.
Definition debug_change_email_selector : CSSSelector :=
  {| sel_selector := ""; sel_href := None; sel_text := "Mes informations personnelles" |}.
(** The debug response has no [next_action_location]; it is never read since
    [is_page_reached] is true. *)
Definition debug_email_analysis : ChangeEmailSectionAnalysis :=
  {| ea_is_page_reached := true; ea_next_action_location := "" |}.

(** [find_url]: [search_engine.search(query, num_results=5, debug_mode=...)]
    is called on a provider whose [search(self, query, num_results=5)] takes
    no [debug_mode], so the call raises before anything else happens. *)
Definition find_url (k : nat) (s : OverallState) : outcome update :=
  Raise (TypeError "MockProvider.search() got an unexpected keyword argument 'debug_mode'").

(** [state.get("current_url") or state["initial_url"]] *)
Definition current_or_initial_url (s : OverallState) : outcome string :=
  if truthy (current_url s) then req "current_url" (current_url s)
  else match initial_url s with
       | Some u => Ok u
       | None => Raise (BrowserError "url: expected string, got None")
       end.

Definition find_login_button (k : nat) (s : OverallState) : outcome update :=
  url <- current_or_initial_url s ;;
  _ <- w_browse w k (Goto url) ;;
  _ <- w_evaluate w k ;;
  response <- (if debug_mode ctx then Ok debug_login_selector else w_locate_login w k) ;;
  let href := sel_href response in
  Ok [Set_next_action_location (Some (sel_selector response)); Set_login_href href;
      Set_current_url url; Set_navigation_method (determine_navigation_method href)].

(** The browser interaction [navigate_to_login] attempts inside its [try]. *)
Definition navigate_to_login_action (s : OverallState) (url : string) (method : nav_method)
  : outcome action :=
  match method with
  | NavUrl =>
      match login_href s with
      | None => Raise (AttributeError "'NoneType' object has no attribute 'startswith'")
      | Some login_url =>
          Ok (Goto (if String.prefix "/" login_url then urljoin url login_url else login_url))
      end
  | NavClick =>
      match next_action_location s with
      | None => Raise (BrowserError "selector: expected string, got None")
      | Some selector => Ok (Click selector)
      end
  end.

Definition navigate_to_login (k : nat) (s : OverallState) : outcome update :=
  method <- req "navigation_method" (navigation_method s) ;;
  url <- req "current_url" (current_url s) ;;
  let new_url :=
    match (a <- navigate_to_login_action s url method ;; w_browse w k a) with
    | Ok _ => w_url_after w k
    | Raise _ => url          (* Stay on same URL if navigation fails *)
    end in
  Ok [Add_url_history [url]; Set_current_url new_url].

Definition analyze_page (k : nat) (s : OverallState) : outcome update :=
  _ <- w_evaluate w k ;;
  response <- (if debug_mode ctx then Ok debug_page_analysis else w_judge_login w k) ;;
  Ok [Set_is_login_page_reached (pa_is_page_reached response);
      Set_username_selector (pa_username_selector response);
      Set_password_selector (pa_password_selector response);
      Set_submit_selector (pa_submit_selector response);
      Set_retry_count (match retry_count s with Some c => c | None => 0 end + 1)].

Definition login (k : nat) (s : OverallState) : outcome update :=
  match username ctx, password ctx with
  | Some user, Some pass =>
      if String.eqb user "" || String.eqb pass "" then
        Ok [Set_login_success false; Set_error "Missing username or password"]
      else
        let initial_url := w_url_before w k in
        let attempt :=
          us <- req "username_selector" (username_selector s) ;;
          _ <- w_browse w k (Fill us user) ;;
          ps <- req "password_selector" (password_selector s) ;;
          _ <- w_browse w k (Fill ps pass) ;;
          ss <- req "submit_selector" (submit_selector s) ;;
          w_browse w k (Click ss) in
        match attempt with
        | Ok _ =>
            let new_url := w_url_after w k in
            Ok [Set_login_success (verify_login_success initial_url new_url (w_login_probes w k));
                Set_current_url new_url;
                Add_url_history [new_url]]
        | Raise (TimeoutError m) =>
            Ok [Set_login_success false; Set_error ("Timeout during login process: " ++ m)]
        | Raise e =>
            Ok [Set_login_success false; Set_error (exn_str e)]
        end
  | _, _ => Ok [Set_login_success false; Set_error "Missing username or password"]
  end.

Definition find_change_email_access (k : nat) (s : OverallState) : outcome update :=
  url <- req "current_url" (current_url s) ;;
  _ <- w_evaluate w k ;;
  response <- (if debug_mode ctx then Ok debug_change_email_selector
               else w_locate_change_email w k) ;;
  Ok [Set_next_action_location (Some (sel_text response)); Set_current_url url].

(** The browser interaction [navigate_to_change_email_section] attempts. *)
Definition navigate_to_change_email_section_action (s : OverallState) : outcome action :=
  match next_action_location s with
  | None => Raise (BrowserError "text: expected string, got None")
  | Some selector => Ok (ClickText selector)
  end.

Definition navigate_to_change_email_section (k : nat) (s : OverallState) : outcome update :=
  url <- req "current_url" (current_url s) ;;
  let new_url :=
    match (a <- navigate_to_change_email_section_action s ;; w_browse w k a) with
    | Ok _ => w_url_after w k
    | Raise _ => url          (* Stay on same URL if navigation fails *)
    end in
  Ok [Add_url_history [url]; Set_current_url new_url].

Definition check_if_email_change_reached (k : nat) (s : OverallState) : outcome update :=
  _ <- w_evaluate w k ;;
  response <- (if debug_mode ctx then Ok debug_email_analysis else w_judge_change_email w k) ;;
  let reached := ea_is_page_reached response in
  Ok [Set_is_change_email_section_reached reached;
      Set_next_action_location (if reached then None else Some (ea_next_action_location response));
      Set_current_url (w_url_after w k)].

(** ** graph.py: the compiled graph *)

Inductive node : Type :=
| N_find_url | N_find_login_button | N_navigate_to_login | N_analyze_page | N_login
| N_find_change_email_access | N_navigate_to_change_email_section
| N_check_if_email_change_reached.

Definition run_node (k : nat) (n : node) (s : OverallState) : outcome update :=
  match n with
  | N_find_url => find_url k s
  | N_find_login_button => find_login_button k s
  | N_navigate_to_login => navigate_to_login k s
  | N_analyze_page => analyze_page k s
  | N_login => login k s
  | N_find_change_email_access => find_change_email_access k s
  | N_navigate_to_change_email_section => navigate_to_change_email_section k s
  | N_check_if_email_change_reached => check_if_email_change_reached k s
  end.

Definition node_eq_dec (m n : node) : {m = n} + {m <> n}.
Proof. decide equality. Defined.

Inductive target : Type := To (n : node) | To_END.

(** [add_edge] / [add_conditional_edges] out of each node. *)
Definition route (n : node) (s : OverallState) : outcome target :=
  match n with
  | N_find_url => Ok (To N_find_login_button)
  | N_find_login_button => Ok (To N_navigate_to_login)
  | N_navigate_to_login => Ok (To N_analyze_page)
  | N_analyze_page =>
      b <- should_retry_look_for_login s ;;
      Ok (if b then To N_find_login_button else To N_login)
  | N_login => Ok (To N_find_change_email_access)
  | N_find_change_email_access => Ok (To N_navigate_to_change_email_section)
  | N_navigate_to_change_email_section => Ok (To N_check_if_email_change_reached)
  | N_check_if_email_change_reached =>
      Ok (if should_retry_change_email_section s then To N_find_change_email_access else To_END)
  end.

(** [add_conditional_edges(START, is_url_missing, ...)] *)
Definition start_node (s : OverallState) : node :=
  if is_url_missing s then N_find_url else N_find_login_button.

Inductive config : Type :=
| Running (n : node) (s : OverallState)
| Finished (s : OverallState)
| Crashed (e : exn) (s : OverallState).

Definition step (k : nat) (c : config) : config :=
  match c with
  | Running n s =>
      match run_node k n s with
      | Raise e => Crashed e s
      | Ok u =>
          let s' := apply_update s u in
          match route n s' with
          | Ok (To n') => Running n' s'
          | Ok To_END => Finished s'
          | Raise e => Crashed e s'
          end
      end
  | _ => c
  end.

(** [fuel] steps of [graph.invoke], the [k]-th step being numbered [k]. *)
Fixpoint run (fuel k : nat) (c : config) : config :=
  match fuel with
  | O => c
  | S f => run f (S k) (step k c)
  end.

End Nodes.

Definition initial_config (s : OverallState) : config := Running (start_node s) s.

Definition config_state (c : config) : OverallState :=
  match c with Running _ s | Finished s | Crashed _ s => s end.

(** [output_schema=OutputState]: the run output keeps only [output_status]. *)
Definition graph_output (s : OverallState) : option string := output_status s.

(** Executed nodes of the first [fuel] steps, in order. *)
Fixpoint executed (urljoin : string -> string -> string) (ctx : ContextSchema) (w : World)
  (fuel k : nat) (c : config) : list node :=
  match fuel, c with
  | S f, Running n _ => n :: executed urljoin ctx w f (S k) (step urljoin ctx w k c)
  | _, _ => []
  end.


(** ** Concrete configurations used by the witnesses *)

(** graph.py's context: debug mode on, credentials set. *)
Definition ctx_debug : ContextSchema :=
  {| debug_mode := true; username := Some "me@example.com"; password := Some "secret" |}.

(** The same with the live classifier. *)
Definition ctx_live : ContextSchema :=
  {| debug_mode := false; username := Some "me@example.com"; password := Some "secret" |}.

(** A concrete [urljoin] for relative hrefs. *)
Definition join_stub (base rel : string) : string := base ++ rel.

(** A browser on which every interaction succeeds and a classifier whose
    verdicts on "login page reached" and "change-email section reached" are
    fixed. *)
Definition stub_world (login_reached email_reached : bool) : World :=
  {| w_evaluate := fun _ => Ok tt;
     w_browse := fun _ _ => Ok tt;
     w_url_before := fun _ => "https://shop.example/login";
     w_url_after := fun _ => "https://shop.example/account";
     w_locate_login := fun _ =>
       Ok {| sel_selector := "#login"; sel_href := Some "https://shop.example/login";
             sel_text := "Log in" |};
     w_judge_login := fun _ =>
       Ok {| pa_is_page_reached := login_reached; pa_username_selector := "#u";
             pa_password_selector := "#p"; pa_submit_selector := "#s" |};
     w_locate_change_email := fun _ =>
       Ok {| sel_selector := ""; sel_href := None; sel_text := "Account" |};
     w_judge_change_email := fun _ =>
       Ok {| ea_is_page_reached := email_reached; ea_next_action_location := "Account" |};
     w_login_probes := fun _ =>
       {| probe_form_disappeared := Ok true; probe_no_errors := Ok true;
          probe_success_indicators := Ok true |} |}.

(** [stub_world] whose browser raises on every interaction. *)
Definition broken_browser_world : World :=
  {| w_evaluate := fun _ => Ok tt;
     w_browse := fun _ _ => Raise (BrowserError "Timeout 10000ms exceeded");
     w_url_before := w_url_before (stub_world true true);
     w_url_after := w_url_after (stub_world true true);
     w_locate_login := w_locate_login (stub_world true true);
     w_judge_login := w_judge_login (stub_world true true);
     w_locate_change_email := w_locate_change_email (stub_world true true);
     w_judge_change_email := w_judge_change_email (stub_world true true);
     w_login_probes := w_login_probes (stub_world true true) |}.

(** Run input with a known homepage. *)
Definition shop_input : OverallState := input_state "Shop" (Some "https://shop.example/").

(** A state half-way through the change-email phase, whose stale login
    fields still say "follow the URL". *)
Definition change_email_pending : OverallState :=
  apply_update shop_input
    [Set_current_url "https://shop.example/account";
     Set_login_href (Some "https://shop.example/login");
     Set_navigation_method NavUrl;
     Set_next_action_location (Some "Account")].

(** A state just before [navigate_to_login], with a relative login href. *)
Definition login_pending : OverallState :=
  apply_update shop_input
    [Set_current_url "https://shop.example/"; Set_navigation_method NavUrl;
     Set_login_href (Some "/login")].

(** The configurations of the change-email cycle once the login phase has
    left [retry_count] at 1. *)
Definition in_change_email_cycle (c : config) : Prop :=
  exists n s, c = Running n s /\
    (n = N_find_change_email_access \/ n = N_navigate_to_change_email_section
     \/ n = N_check_if_email_change_reached) /\
    retry_count s = Some 1 /\ (exists u, current_url s = Some u).

(** ** search_engine.py *)

(** JSON values as [response.json()] returns them (object keys distinct). *)
#[local] Set Warnings "-register-all".
Inductive json : Type :=
| JNull
| JBool (b : bool)
| JNum (z : Z)
| JStr (s : string)
| JArr (l : list json)
| JObj (kv : list (string * json)).

(** [d.get(key, default)] *)
Definition dict_get (j : json) (key : string) (default : json) : outcome json :=
  match j with
  | JObj kv =>
      Ok (match find (fun p => String.eqb (fst p) key) kv with
          | Some (_, v) => v
          | None => default
          end)
  | _ => Raise (AttributeError "object has no attribute 'get'")
  end.

(** [d[key]] *)
Definition dict_item (j : json) (key : string) : outcome json :=
  match j with
  | JObj kv =>
      match find (fun p => String.eqb (fst p) key) kv with
      | Some (_, v) => Ok v
      | None => Raise (KeyError key)
      end
  | JNull => Raise (TypeError "'NoneType' object is not subscriptable")
  | _ => Raise (TypeError "indices must be integers")
  end.

(** [l[:n]] *)
Definition py_slice_upto {A} (n : Z) (l : list A) : list A :=
  if 0 <=? n then firstn (Z.to_nat n) l
  else firstn (Z.to_nat (Z.of_nat (length l) + n)) l.

(** [[f(x) for x in l]], stopping at the first exception. *)
Fixpoint map_outcome {A B} (f : A -> outcome B) (l : list A) : outcome (list B) :=
  match l with
  | [] => Ok []
  | x :: l' => y <- f x ;; ys <- map_outcome f l' ;; Ok (y :: ys)
  end.

(** [web_results[:num_results]]: slicing a string gives its characters,
    which [item['url']] then rejects. *)
Definition slice_results (web_results : json) (num_results : Z) : outcome (list json) :=
  match web_results with
  | JArr l => Ok (py_slice_upto num_results l)
  | JStr s =>
      match py_slice_upto num_results (list_ascii_of_string s) with
      | [] => Ok []
      | _ => Raise (TypeError "string indices must be integers")
      end
  | JNull => Raise (TypeError "'NoneType' object is not subscriptable")
  | _ => Raise (TypeError "unhashable type: 'slice'")
  end.

(** The part of [BraveProvider.search] after the status check. *)
Definition brave_extract (results : json) (num_results : Z) : outcome (list json) :=
  web <- dict_get results "web" (JObj []) ;;
  web_results <- dict_get web "results" (JArr []) ;;
  items <- slice_results web_results num_results ;;
  map_outcome (fun item => dict_item item "url") items.

Record http_request : Type := {
  rq_url : string;
  rq_headers : list (string * string);
  rq_params : list (string * string) }.

Record http_response : Type := {
  status_code : Z;
  json_body : outcome json }.    (* response.json() may raise *)

(** [BraveProvider.__init__] *)
Definition brave_request (api_key query : string) : http_request :=
  {| rq_url := "https://api.search.brave.com/res/v1/web/search";
     rq_headers := [("Accept", "application/json"); ("Accept-Encoding", "gzip");
                    ("X-Subscription-Token", api_key)];
     rq_params := [("q", query)] |}.

(** [BraveProvider.search]; [requests_get] is [requests.get]. *)
Definition brave_search (requests_get : http_request -> outcome http_response)
  (api_key query : string) (num_results : Z) : outcome (list json) :=
  response <- requests_get (brave_request api_key query) ;;
  if negb (status_code response =? 200) then Ok []
  else
    results <- json_body response ;;
    brave_extract results num_results.

(** [MockProvider.search] *)
Definition mock_search (query : string) (num_results : Z) : list string :=
  ["https://www.agrosemens.com/"; "https://graines-biologiques.com/";
   "https://www.facebook.com/agrosemens.semencesbio/?locale=fr_FR";
   "https://www.instagram.com/agrosemens_bio/"; "https://fr.linkedin.com/company/agrosemens"].

(** The response mocked by test_search_engine.py. *)
Definition brave_test_response : http_response :=
  {| status_code := 200;
     json_body := Ok (JObj [("web", JObj [("results",
       JArr [JObj [("url", JStr "https://brave-result.com/1"); ("title", JStr "Brave 1")];
             JObj [("url", JStr "https://brave-result.com/2"); ("title", JStr "Brave 2")]])])]) |}.

(** ** graph.py: playwright_session *)

(** The Playwright handles stored on the context. *)
Record pw_fields : Type := mkFields {
  f_playwright : option nat;
  f_browser : option nat;
  f_page : option nat }.

(** What the Playwright calls return. *)
Record session_world : Type := {
  sw_start : outcome nat;          (* sync_playwright().__enter__ *)
  sw_launch : outcome nat;         (* p.chromium.launch(headless=False) *)
  sw_new_page : outcome nat;       (* browser.new_page() *)
  sw_close_page : outcome unit;    (* context.page.close() *)
  sw_close_browser : outcome unit  (* context.browser.close() *) }.

Inductive pw_event : Type :=
| Ev_start | Ev_launch | Ev_new_page | Ev_body | Ev_close_page | Ev_close_browser | Ev_stop.

(** [with playwright_session(context): body]: the final handles, the calls
    made in order, and what the [with] statement produces.  Leaving
    [sync_playwright()] stops Playwright and lets the exception through. *)
Definition playwright_session {A} (sw : session_world) (f0 : pw_fields) (body : outcome A)
  : pw_fields * list pw_event * outcome A :=
  match sw_start sw with
  | Raise e => (f0, [Ev_start], Raise e)
  | Ok p =>
      let f1 := mkFields (Some p) (f_browser f0) (f_page f0) in
      match sw_launch sw with
      | Raise e => (f1, [Ev_start; Ev_launch; Ev_stop], Raise e)
      | Ok b =>
          let f2 := mkFields (Some p) (Some b) (f_page f0) in
          match sw_new_page sw with
          | Raise e => (f2, [Ev_start; Ev_launch; Ev_new_page; Ev_stop], Raise e)
          | Ok pg =>
              let f3 := mkFields (Some p) (Some b) (Some pg) in
              (* try: yield context  finally: ... *)
              match sw_close_page sw with
              | Raise e =>
                  (f3, [Ev_start; Ev_launch; Ev_new_page; Ev_body; Ev_close_page; Ev_stop],
                   Raise e)
              | Ok _ =>
                  match sw_close_browser sw with
                  | Raise e =>
                      (f3, [Ev_start; Ev_launch; Ev_new_page; Ev_body; Ev_close_page;
                            Ev_close_browser; Ev_stop], Raise e)
                  | Ok _ =>
                      (mkFields None None None,
                       [Ev_start; Ev_launch; Ev_new_page; Ev_body; Ev_close_page;
                        Ev_close_browser; Ev_stop], body)
                  end
              end
          end
      end
  end.

(** ** Run-level bookkeeping *)

Definition count_node (n : node) (l : list node) : nat :=
  length (filter (fun m => if node_eq_dec m n then true else false) l).

(** [state.get("retry_count", 0)] *)
Definition retry_value (s : OverallState) : Z :=
  match retry_count s with Some c => c | None => 0 end.

Definition login_phase (n : node) : bool :=
  match n with
  | N_find_url | N_find_login_button | N_navigate_to_login | N_analyze_page => true
  | _ => false
  end.

(** After [a] executions of [analyze_page]: in the login phase [retry_count]
    counts them and at most two have run; afterwards at most three. *)
Definition analyze_budget (a : nat) (c : config) : Prop :=
  match c with
  | Running n s =>
      if login_phase n then retry_value s = Z.of_nat a /\ (a <= 2)%nat else (a <= 3)%nat
  | _ => (a <= 3)%nat
  end.

(** graph.py's context when EMAIL_PASSWORD is unset. *)
Definition ctx_no_password : ContextSchema :=
  {| debug_mode := true; username := Some "me@example.com"; password := None |}.

(** A state whose login form selectors are known. *)
Definition login_form_state : OverallState :=
  apply_update shop_input
    [Set_current_url "https://shop.example/login"; Set_username_selector "#u";
     Set_password_selector "#p"; Set_submit_selector "#s"].


(** The page was already closed by the time the [finally] clause runs. *)
Definition pw_page_close_fails : session_world :=
  {| sw_start := Ok 1%nat; sw_launch := Ok 2%nat; sw_new_page := Ok 3%nat;
     sw_close_page := Raise (BrowserError "Target page, context or browser has been closed");
     sw_close_browser := Ok tt |}.

(** ** Helper lemmas *)

Lemma ci_eqb_lower (s t : string) : ci_eqb s t = String.eqb (lower s) (lower t).
Proof.
  revert t; induction s as [|a s IH]; intros [|b t]; simpl; try reflexivity.
  unfold ci_char_eqb. rewrite IH. reflexivity.
Qed.

Lemma ci_prefix_lower (p s : string) : ci_prefix p s = String.prefix (lower p) (lower s).
Proof.
  revert s; induction p as [|a p IH]; intros [|b s]; simpl; try reflexivity.
  unfold ci_char_eqb. rewrite IH.
  destruct (ascii_dec (lower_char a) (lower_char b)) as [E|E].
  - rewrite E, Ascii.eqb_refl. reflexivity.
  - destruct (Ascii.eqb_spec (lower_char a) (lower_char b)); [contradiction | reflexivity].
Qed.

(** ** Claims *)

(** C7: [determine_navigation_method] agrees with the rule table of spec §4.1
    on every optional string: absent or empty gives click, a no-op marker
    ([#], [javascript:void(0)], [javascript:;], any case) gives click, a
    case-insensitive [http://], [https://] or [/] prefix gives url, anything
    else gives click.  Being a Rocq function it is total and deterministic. *)
Theorem C7_determine_navigation_method_rules :
  forall href : option string, determine_navigation_method href = resolve_spec href.
Proof.
  intros [h|]; [|reflexivity].
  unfold determine_navigation_method, resolve_spec, str_in, startswith_any.
  destruct (String.eqb h ""); [reflexivity|].
  cbn [existsb]. rewrite !ci_eqb_lower, !ci_prefix_lower. reflexivity.
Qed.

Example C7_examples :
  determine_navigation_method None = NavClick /\
  determine_navigation_method (Some "") = NavClick /\
  determine_navigation_method (Some "JavaScript:Void(0)") = NavClick /\
  determine_navigation_method (Some "HTTPS://shop.example/login") = NavUrl /\
  determine_navigation_method (Some "/login") = NavUrl /\
  determine_navigation_method (Some "login.html") = NavClick.
Proof. repeat split; reflexivity. Qed.

(** C5: with the three probes returning booleans, [verify_login_success]
    returns exactly (urlChanged /\ noErrors) \/ (formGone /\ noErrors) \/
    (successCues /\ noErrors /\ (urlChanged \/ formGone)) for every
    combination of the four signals; in particular
    urlChanged = true, formGone = false, noErrors = false, successCues = true
    gives false. *)
Theorem C5_login_decision_formula :
  (forall (initial_url new_url : string) (f e s : bool),
      verify_login_success initial_url new_url
        {| probe_form_disappeared := Ok f; probe_no_errors := Ok e;
           probe_success_indicators := Ok s |}
      = verify_spec (url_changed initial_url new_url) f e s) /\
  (forall u f e s : bool, login_decision u f e s = verify_spec u f e s) /\
  login_decision true false false true = false.
Proof.
  split; [|split].
  - intros; reflexivity.
  - intros [] [] [] []; reflexivity.
  - reflexivity.
Qed.

(** C6: if any of the three page inspections of [verify_login_success]
    raises, the verdict is false (fail closed). *)
Theorem C6_verify_login_fails_closed :
  forall (initial_url new_url : string) (p : login_probes) (e : exn),
    probe_form_disappeared p = Raise e \/ probe_no_errors p = Raise e
    \/ probe_success_indicators p = Raise e ->
    verify_login_success initial_url new_url p = false.
Proof.
  intros i n [pf pe ps] e H; simpl in H; unfold verify_login_success; simpl.
  destruct H as [ H | [ H | H ] ]; rewrite H; simpl; [reflexivity | | ].
  - destruct pf; reflexivity.
  - destruct pf as [f|]; [|reflexivity]; destruct pe; reflexivity.
Qed.

Lemma C6_witness :
  (probe_form_disappeared
     {| probe_form_disappeared := Ok true; probe_no_errors := Raise (BrowserError "detached");
        probe_success_indicators := Ok true |} = Raise (BrowserError "detached")
   \/ probe_no_errors
        {| probe_form_disappeared := Ok true; probe_no_errors := Raise (BrowserError "detached");
           probe_success_indicators := Ok true |} = Raise (BrowserError "detached")
   \/ probe_success_indicators
        {| probe_form_disappeared := Ok true; probe_no_errors := Raise (BrowserError "detached");
           probe_success_indicators := Ok true |} = Raise (BrowserError "detached"))
  /\ verify_login_success "https://shop.example/login" "https://shop.example/account"
       {| probe_form_disappeared := Ok true; probe_no_errors := Raise (BrowserError "detached");
          probe_success_indicators := Ok true |} = false.
Proof.
  split.
  - right; left; reflexivity.
  - apply (C6_verify_login_fails_closed _ _ _ (BrowserError "detached")).
    right; left; reflexivity.
Defined.

(** Case analysis on the fallible calls a node makes, until its result is known. *)
Ltac node_cases :=
  repeat match goal with
  | H : Ok _ = Ok _ |- _ => injection H as <-
  | H : Raise _ = Ok _ |- _ => discriminate H
  | H : context [bind ?m _] |- _ => unfold bind in H
  | H : context [req _ _] |- _ => unfold req in H
  | H : context [match ?x with Ok _ => _ | Raise _ => _ end] |- _ =>
      destruct x eqn:?; simpl in H
  | H : context [match ?x with Some _ => _ | None => _ end] |- _ =>
      destruct x eqn:?; simpl in H
  | H : context [match ?x with
                 | TimeoutError _ => _ | KeyError _ => _ | AttributeError _ => _
                 | TypeError _ => _ | BrowserError _ => _ | ClassifierError _ => _ end] |- _ =>
      destruct x; simpl in H
  | H : context [if ?b then _ else _] |- _ => destruct b eqn:?; simpl in H
  end.

(** C4 (as the code has it): the login-phase predicate is true exactly when
    the login page is not reached and fewer than 3 attempts were counted:
    with reached = false it is true for attempts 0, 1, 2 and false from 3
    on, in which case the gate routes to [login]; with reached = true it is
    false.  The change-email predicate ignores the verdict of
    [check_if_email_change_reached]: the key it reads is not a channel of the
    graph, so with reached = true it is still true for attempts 0, 1, 2 and
    routes back to [find_change_email_access]; only attempts >= 3 end the
    run.  In graph.py's own configuration (debug mode), the check reports
    the section reached and the run goes back to [find_change_email_access].
    On a classifier that never recognises the login page, the machine
    reaches [login] after exactly three verification cycles. *)
Theorem C4_should_retry_table :
  forall (s : OverallState) (a : Z),
    let login_st r := apply_update s [Set_is_login_page_reached r; Set_retry_count a] in
    let email_st r := apply_update s [Set_is_change_email_section_reached r; Set_retry_count a] in
    (0 <= a <= 2 ->
       should_retry_look_for_login (login_st false) = Ok true /\
       should_retry_change_email_section (email_st false) = true) /\
    (3 <= a ->
       should_retry_look_for_login (login_st false) = Ok false /\
       should_retry_change_email_section (email_st false) = false /\
       route N_analyze_page (login_st false) = Ok (To N_login) /\
       route N_check_if_email_change_reached (email_st false) = Ok To_END) /\
    should_retry_look_for_login (login_st true) = Ok false /\
    (0 <= a <= 2 ->
       should_retry_change_email_section (email_st true) = true /\
       route N_check_if_email_change_reached (email_st true)
       = Ok (To N_find_change_email_access)) /\
    (3 <= a -> should_retry_change_email_section (email_st true) = false) /\
    (exists s', run join_stub ctx_debug (stub_world true true) 7 0 (initial_config shop_input)
                = Running N_find_change_email_access s' /\ retry_count s' = Some 1 /\
                check_if_email_change_reached ctx_debug (stub_world true true) 6
                  (config_state (run join_stub ctx_debug (stub_world true true) 6 0
                                   (initial_config shop_input)))
                = Ok [Set_is_change_email_section_reached true; Set_next_action_location None;
                      Set_current_url "https://shop.example/account"]) /\
    (exists s', run join_stub ctx_live (stub_world false true) 9 0 (initial_config shop_input)
                = Running N_login s' /\ retry_count s' = Some 3 /\
                executed join_stub ctx_live (stub_world false true) 9 0 (initial_config shop_input)
                = [N_find_login_button; N_navigate_to_login; N_analyze_page;
                   N_find_login_button; N_navigate_to_login; N_analyze_page;
                   N_find_login_button; N_navigate_to_login; N_analyze_page]).
Proof.
  intros s a; destruct s; cbn -[Z.ltb run executed].
  split; [|split; [|split; [|split; [|split; [|split]]]]].
  - intros H. assert (E : (a <? 3) = true) by (apply Z.ltb_lt; lia).
    rewrite E; split; reflexivity.
  - intros H. assert (E : (a <? 3) = false) by (apply Z.ltb_ge; lia).
    rewrite E; repeat split; reflexivity.
  - reflexivity.
  - intros H. assert (E : (a <? 3) = true) by (apply Z.ltb_lt; lia).
    rewrite E; split; reflexivity.
  - intros H. assert (E : (a <? 3) = false) by (apply Z.ltb_ge; lia).
    rewrite E; reflexivity.
  - eexists; split; [vm_compute; reflexivity|]. split; vm_compute; reflexivity.
  - eexists; split; [vm_compute; reflexivity|]. split; vm_compute; reflexivity.
Qed.

Lemma C4_witness :
  (0 <= 1 <= 2) /\
  should_retry_look_for_login
    (apply_update shop_input [Set_is_login_page_reached false; Set_retry_count 1]) = Ok true.
Proof.
  split; [lia|].
  exact (proj1 (proj1 (C4_should_retry_table shop_input 1) ltac:(lia))).
Defined.

(** C2 (as the code has it): [analyze_page] sets [retry_count] to its
    previous value (0 when absent) plus one, while
    [check_if_email_change_reached] leaves [retry_count] unchanged. *)
Theorem C2_retry_count_updates :
  forall (ctx : ContextSchema) (w : World) (k : nat) (s : OverallState) (u : update),
    (analyze_page ctx w k s = Ok u ->
       retry_count (apply_update s u)
       = Some (match retry_count s with Some c => c | None => 0 end + 1)) /\
    (check_if_email_change_reached ctx w k s = Ok u ->
       retry_count (apply_update s u) = retry_count s).
Proof.
  intros ctx w k s u; split; intros H.
  - unfold analyze_page in H; node_cases; destruct s; reflexivity.
  - unfold check_if_email_change_reached in H; node_cases; destruct s; reflexivity.
Qed.

(** The failing input of C2: one verification cycle of the change-email
    phase run on the live classifier, which says "not reached". *)
Lemma C2_witness :
  check_if_email_change_reached ctx_live (stub_world true false) 5
    (apply_update shop_input [Set_retry_count 1])
  = Ok [Set_is_change_email_section_reached false;
        Set_next_action_location (Some "Account");
        Set_current_url "https://shop.example/account"] /\
  retry_count (apply_update (apply_update shop_input [Set_retry_count 1])
                 [Set_is_change_email_section_reached false;
                  Set_next_action_location (Some "Account");
                  Set_current_url "https://shop.example/account"]) = Some 1.
Proof.
  split; [reflexivity|].
  exact (proj2 (C2_retry_count_updates ctx_live (stub_world true false) 5
                  (apply_update shop_input [Set_retry_count 1])
                  [Set_is_change_email_section_reached false;
                   Set_next_action_location (Some "Account");
                   Set_current_url "https://shop.example/account"]) eq_refl).
Defined.

Lemma run_add (urljoin : string -> string -> string) (ctx : ContextSchema) (w : World) :
  forall (a b k : nat) (c : config),
    run urljoin ctx w (a + b)%nat k c = run urljoin ctx w b (k + a)%nat (run urljoin ctx w a k c).
Proof.
  induction a as [|a IH]; intros b k c.
  - rewrite Nat.add_0_r; reflexivity.
  - simpl. rewrite IH, Nat.add_succ_r. reflexivity.
Qed.

Lemma change_email_cycle_step (urljoin : string -> string -> string) (k : nat) (c : config) :
  in_change_email_cycle c ->
  in_change_email_cycle (step urljoin ctx_live (stub_world true false) k c).
Proof.
  intros (n & s & -> & Hn & Hr & u & Hu).
  destruct s; simpl in Hr, Hu; subst.
  destruct Hn as [ E | [ E | E ] ]; subst n.
  - eexists; eexists; split; [reflexivity|].
    split; [right; left; reflexivity|]. split; [reflexivity|]. eexists; reflexivity.
  - destruct next_action_location0;
      (eexists; eexists; split; [reflexivity|];
       split; [right; right; reflexivity|]; split; [reflexivity|]; eexists; reflexivity).
  - eexists; eexists; split; [reflexivity|].
    split; [left; reflexivity|]. split; [reflexivity|]. eexists; reflexivity.
Qed.

Lemma change_email_cycle_run (urljoin : string -> string -> string) :
  forall (n k : nat) (c : config),
    in_change_email_cycle c ->
    in_change_email_cycle (run urljoin ctx_live (stub_world true false) n k c).
Proof.
  induction n as [|n IH]; intros k c H; [exact H|].
  simpl. apply IH, change_email_cycle_step, H.
Qed.

(** C1 (as the code has it): the change-email retry loop is not bounded.
    With a classifier that recognises the login page at the first check and
    never recognises the change-email section, the login phase leaves
    [retry_count] at 1, [check_if_email_change_reached] never increments it,
    and the machine is still running (with [retry_count] = 1) after any
    number of steps. *)
Theorem C1_change_email_loop_unbounded :
  forall (urljoin : string -> string -> string) (n : nat),
    exists nd s,
      run urljoin ctx_live (stub_world true false) n 0 (initial_config shop_input) = Running nd s.
Proof.
  intros urljoin n.
  assert (H7 : in_change_email_cycle
                 (run urljoin ctx_live (stub_world true false) 7 0 (initial_config shop_input))).
  { eexists; eexists; split; [reflexivity|].
    split; [left; reflexivity|]. split; [reflexivity|]. eexists; reflexivity. }
  destruct (Nat.lt_ge_cases n 7) as [Hlt|Hge].
  - do 7 (destruct n as [|n]; [eexists; eexists; reflexivity|]). lia.
  - replace n with (7 + (n - 7))%nat by lia. rewrite run_add.
    destruct (change_email_cycle_run urljoin (n - 7) (0 + 7) _ H7) as (nd & s & E & _).
    exists nd, s; exact E.
Qed.

Ltac unfold_nodes H :=
  cbn [run_node] in H;
  unfold find_url, find_login_button, navigate_to_login, analyze_page, login,
    find_change_email_access, navigate_to_change_email_section,
    check_if_email_change_reached in H.

Lemma run_node_output_status (urljoin : string -> string -> string) (ctx : ContextSchema)
  (w : World) (k : nat) (n : node) (s : OverallState) (u : update) :
  run_node urljoin ctx w k n s = Ok u -> output_status (apply_update s u) = output_status s.
Proof.
  intros H; destruct n; unfold_nodes H; node_cases; destruct s; reflexivity.
Qed.

Lemma step_output_status (urljoin : string -> string -> string) (ctx : ContextSchema)
  (w : World) (k : nat) (c : config) :
  output_status (config_state (step urljoin ctx w k c)) = output_status (config_state c).
Proof.
  destruct c as [n s| |]; try reflexivity; simpl.
  destruct (run_node urljoin ctx w k n s) as [u|e] eqn:E; [|reflexivity].
  apply run_node_output_status in E.
  destruct (route n (apply_update s u)) as [[n'|]|e]; exact E.
Qed.

(** C3 (as the code has it): no node assigns [output_status], so along every
    run, for every behaviour of the browser and the classifier, it keeps the
    value it had in the input; the graph input has none, so the run output
    carries no status.  Runs can also end in an uncaught exception: without
    [initial_url], [find_url] raises a [TypeError] at the first step. *)
Theorem C3_output_status_never_assigned :
  (forall (urljoin : string -> string -> string) (ctx : ContextSchema) (w : World)
          (n k : nat) (c : config),
      output_status (config_state (run urljoin ctx w n k c)) = output_status (config_state c)) /\
  (forall (urljoin : string -> string -> string) (ctx : ContextSchema) (w : World)
          (name : string) (url : option string),
      graph_output (config_state (run urljoin ctx w 1000 0
                                      (initial_config (input_state name url)))) = None) /\
  (forall (urljoin : string -> string -> string) (ctx : ContextSchema) (w : World)
          (name : string),
      run urljoin ctx w 1 0 (initial_config (input_state name None))
      = Crashed (TypeError "MockProvider.search() got an unexpected keyword argument 'debug_mode'")
                (input_state name None)).
Proof.
  assert (Hrun : forall urljoin ctx w n k c,
             output_status (config_state (run urljoin ctx w n k c))
             = output_status (config_state c)).
  { intros urljoin ctx w n; induction n as [|n IH]; intros k c; [reflexivity|].
    simpl. rewrite IH. apply step_output_status. }
  split; [exact Hrun|split].
  - intros. unfold graph_output. rewrite Hrun. reflexivity.
  - intros. reflexivity.
Qed.

(** A completed run: the live classifier never recognises the login page,
    so after three verification cycles the graph goes on to [login] and
    ends after the first change-email check, since [retry_count] is 3.  The
    run output carries no [output_status]. *)
Lemma C3_counterexample :
  exists s, run join_stub ctx_live (stub_world false false) 13 0 (initial_config shop_input)
            = Finished s /\ graph_output s = None.
Proof. eexists; split; vm_compute; reflexivity. Qed.




(** C9 (as the code has it): when the browser interaction of a navigation
    node raises (including the failure to build it, e.g. a missing href),
    the exception is caught, [current_url] keeps its prior value, the prior
    URL is appended to [url_history], the [error] field is left as it was,
    and the machine moves on to the verification node. *)
Theorem C9_navigation_failure_recovered :
  forall (urljoin : string -> string -> string) (ctx : ContextSchema) (w : World)
         (k : nat) (s : OverallState) (url : string) (e : exn),
    current_url s = Some url ->
    (forall m : nav_method,
       navigation_method s = Some m ->
       (a <- navigate_to_login_action urljoin s url m ;; w_browse w k a) = Raise e ->
       exists s', step urljoin ctx w k (Running N_navigate_to_login s) = Running N_analyze_page s' /\
         current_url s' = Some url /\ url_history s' = (url_history s ++ [url])%list /\
         error s' = error s) /\
    ((a <- navigate_to_change_email_section_action s ;; w_browse w k a) = Raise e ->
       exists s', step urljoin ctx w k (Running N_navigate_to_change_email_section s)
                  = Running N_check_if_email_change_reached s' /\
         current_url s' = Some url /\ url_history s' = (url_history s ++ [url])%list /\
         error s' = error s).
Proof.
  intros urljoin ctx w k s url e Hu; split.
  - intros m Hm H. cbn [bind] in H.
    unfold step, run_node, navigate_to_login, req. rewrite Hm, Hu. cbn [bind]. rewrite H.
    eexists; split; [reflexivity|].
    destruct s; simpl in Hu |- *; subst; repeat split; reflexivity.
  - intros H. cbn [bind] in H.
    unfold step, run_node, navigate_to_change_email_section, req. rewrite Hu. cbn [bind].
    rewrite H.
    eexists; split; [reflexivity|].
    destruct s; simpl in Hu |- *; subst; repeat split; reflexivity.
Qed.

Lemma C9_witness :
  current_url login_pending = Some "https://shop.example/" /\
  navigation_method login_pending = Some NavUrl /\
  (a <- navigate_to_login_action join_stub login_pending "https://shop.example/" NavUrl ;;
   w_browse broken_browser_world 2 a) = Raise (BrowserError "Timeout 10000ms exceeded") /\
  exists s', step join_stub ctx_live broken_browser_world 2 (Running N_navigate_to_login login_pending)
             = Running N_analyze_page s' /\
    current_url s' = Some "https://shop.example/" /\
    url_history s' = (url_history login_pending ++ ["https://shop.example/"])%list /\
    error s' = error login_pending.
Proof.
  split; [reflexivity|]. split; [reflexivity|]. split; [reflexivity|].
  exact (proj1 (C9_navigation_failure_recovered join_stub ctx_live broken_browser_world 2
                  login_pending "https://shop.example/" (BrowserError "Timeout 10000ms exceeded")
                  eq_refl) NavUrl eq_refl eq_refl).
Defined.

(** A failed navigation leaves nothing in [error]. *)
Lemma C9_counterexample :
  (exists s', step join_stub ctx_live broken_browser_world 2 (Running N_navigate_to_login login_pending)
              = Running N_analyze_page s' /\ error s' = None) /\
  (exists s', step join_stub ctx_live broken_browser_world 6
                (Running N_navigate_to_change_email_section change_email_pending)
              = Running N_check_if_email_change_reached s' /\ error s' = None).
Proof. split; eexists; split; reflexivity. Qed.

(** C10 (as the code has it): [navigate_to_change_email_section] does not
    consult the resolver: whatever [navigation_method] and [login_href]
    hold, its only browser interaction is a click on the first element whose
    text is [next_action_location]. *)
Theorem C10_change_email_navigation_clicks_text :
  forall (w : World) (k : nat) (s : OverallState) (url text : string),
    current_url s = Some url -> next_action_location s = Some text ->
    navigate_to_change_email_section w k s
    = Ok [Add_url_history [url];
          Set_current_url (match w_browse w k (ClickText text) with
                           | Ok _ => w_url_after w k
                           | Raise _ => url
                           end)] /\
    (forall (m : nav_method) (h : option string),
        navigate_to_change_email_section w k
          (apply_update s [Set_navigation_method m; Set_login_href h])
        = navigate_to_change_email_section w k s).
Proof.
  intros w k s url text Hu Ht; split.
  - unfold navigate_to_change_email_section, navigate_to_change_email_section_action, req.
    rewrite Hu, Ht. reflexivity.
  - intros m h; destruct s; reflexivity.
Qed.

Lemma C10_witness :
  current_url change_email_pending = Some "https://shop.example/account" /\
  next_action_location change_email_pending = Some "Account" /\
  navigate_to_change_email_section (stub_world true true) 6 change_email_pending
  = Ok [Add_url_history ["https://shop.example/account"];
        Set_current_url (match w_browse (stub_world true true) 6 (ClickText "Account") with
                         | Ok _ => w_url_after (stub_world true true) 6
                         | Raise _ => "https://shop.example/account"
                         end)].
Proof.
  split; [reflexivity|]. split; [reflexivity|].
  exact (proj1 (C10_change_email_navigation_clicks_text (stub_world true true) 6
                  change_email_pending "https://shop.example/account" "Account" eq_refl eq_refl)).
Defined.

(** The resolver says "follow the URL" for the pending href and the state
    records that method, yet the step clicks by text. *)
Lemma C10_counterexample :
  determine_navigation_method (login_href change_email_pending) = NavUrl /\
  navigation_method change_email_pending = Some NavUrl /\
  navigate_to_change_email_section_action change_email_pending = Ok (ClickText "Account").
Proof. repeat split; reflexivity. Qed.

(** ** Further properties of the code *)

(** [retry_count] after each node: [analyze_page] sets it to the previous
    value (0 when absent) plus one and records a verdict; every other node
    leaves it alone. *)
Lemma run_node_retry_count (urljoin : string -> string -> string) (ctx : ContextSchema)
  (w : World) (k : nat) (n : node) (s : OverallState) (u : update) :
  run_node urljoin ctx w k n s = Ok u ->
  match n with
  | N_analyze_page =>
      retry_count (apply_update s u) = Some (retry_value s + 1) /\
      exists r, is_login_page_reached (apply_update s u) = Some r
  | _ => retry_count (apply_update s u) = retry_count s
  end.
Proof.
  intros H; destruct n; unfold_nodes H; node_cases; destruct s;
    first [reflexivity | split; [reflexivity | eexists; reflexivity]].
Qed.

(** X1: [retry_count] never decreases: along any run, for any behaviour of
    the browser and the classifier, its value ([get] with default 0) at the
    end is at least its value at the start. *)
Theorem X1_retry_count_monotone :
  forall (urljoin : string -> string -> string) (ctx : ContextSchema) (w : World)
         (n k : nat) (c : config),
    retry_value (config_state c) <= retry_value (config_state (run urljoin ctx w n k c)).
Proof.
  intros urljoin ctx w n; induction n as [|n IH]; intros k c; [simpl; lia|].
  simpl. eapply Z.le_trans; [|apply IH].
  destruct c as [nd s| |]; simpl; try lia.
  destruct (run_node urljoin ctx w k nd s) as [u|e] eqn:E; [|simpl; lia].
  apply run_node_retry_count in E.
  assert (Hs : retry_value s <= retry_value (apply_update s u)).
  { destruct nd; try (unfold retry_value; rewrite E; lia).
    destruct E as [E _]; unfold retry_value at 2; rewrite E; lia. }
  destruct (route nd (apply_update s u)) as [[n'|]|e]; exact Hs.
Qed.

Lemma budget_le_3 (a : nat) (c : config) : analyze_budget a c -> (a <= 3)%nat.
Proof.
  destruct c as [n s| |]; simpl; try lia.
  destruct (login_phase n); [intros [_ H]; lia | lia].
Qed.

Lemma step_analyze_budget (urljoin : string -> string -> string) (ctx : ContextSchema)
  (w : World) (k : nat) (a : nat) (c : config) :
  analyze_budget a c ->
  analyze_budget (a + match c with Running N_analyze_page _ => 1 | _ => 0 end)%nat
                 (step urljoin ctx w k c).
Proof.
  destruct c as [n s| s | e s]; simpl; try (intros; lia).
  destruct (run_node urljoin ctx w k n s) as [u|e] eqn:E;
    [|destruct n; simpl; destruct 1; lia].
  pose proof (run_node_retry_count _ _ _ _ _ _ _ E) as R.
  destruct n; simpl; intros Hb; simpl in R.
  - (* find_url *) discriminate E.
  - simpl. unfold retry_value in *; rewrite R, Nat.add_0_r; exact Hb.
  - simpl. unfold retry_value in *; rewrite R, Nat.add_0_r; exact Hb.
  - destruct Hb as [Hv Ha]. destruct R as [R [r Hr]].
    unfold route, should_retry_look_for_login. rewrite Hr.
    destruct r; simpl; [lia|]. rewrite R. simpl.
    destruct (retry_value s + 1 <? 3) eqn:L; simpl.
    + unfold retry_value at 1; rewrite R. apply Z.ltb_lt in L. split; lia.
    + lia.
  - simpl; lia.
  - simpl; lia.
  - simpl; lia.
  - simpl. destruct (should_retry_change_email_section (apply_update s u)); simpl; lia.
Qed.

Lemma executed_analyze_budget (urljoin : string -> string -> string) (ctx : ContextSchema)
  (w : World) :
  forall (n k a : nat) (c : config),
    analyze_budget a c ->
    (a + count_node N_analyze_page (executed urljoin ctx w n k c) <= 3)%nat.
Proof.
  induction n as [|n IH]; intros k a c Hb.
  - apply budget_le_3 in Hb. unfold executed, count_node; simpl.
    rewrite Nat.add_0_r; exact Hb.
  - destruct c as [nd s| s | e s];
      [| simpl in Hb; unfold executed, count_node; simpl; lia
       | simpl in Hb; unfold executed, count_node; simpl; lia].
    pose proof (IH (S k) _ _ (step_analyze_budget urljoin ctx w k a _ Hb)) as IHc.
    unfold executed; fold executed. unfold count_node in *. cbn [filter length].
    destruct (node_eq_dec nd N_analyze_page) as [->|Hne]; cbn [length].
    + lia.
    + destruct nd; lia.
Qed.

(** X2: the login loop is bounded: whatever the browser and the classifier
    do, a run started from the graph input executes [analyze_page] at most
    three times. *)
Theorem X2_analyze_page_at_most_three :
  forall (urljoin : string -> string -> string) (ctx : ContextSchema) (w : World)
         (n : nat) (name : string) (url : option string),
    (count_node N_analyze_page
       (executed urljoin ctx w n 0 (initial_config (input_state name url))) <= 3)%nat.
Proof.
  intros urljoin ctx w n name url.
  apply (executed_analyze_budget urljoin ctx w n 0 0).
  unfold initial_config, start_node, is_url_missing; destruct url; simpl; split; reflexivity || lia.
Qed.

(** Case analysis on the fallible calls in the goal. *)
Ltac goal_cases :=
  repeat match goal with
  | |- context [bind ?m _] => unfold bind
  | |- context [match ?x with Ok _ => _ | Raise _ => _ end] => destruct x; simpl
  | |- context [match ?x with Some _ => _ | None => _ end] => destruct x; simpl
  | |- context [match ?x with
                | TimeoutError _ => _ | KeyError _ => _ | AttributeError _ => _
                | TypeError _ => _ | BrowserError _ => _ | ClassifierError _ => _ end] =>
      destruct x; simpl
  | |- context [if ?b then _ else _] => destruct b; simpl
  end.

(** X3: [login] never raises: every failure (missing credentials, missing
    selectors, browser errors, timeouts) becomes a returned update, so the
    run always continues to [find_change_email_access] after it. *)
Theorem X3_login_never_raises :
  forall (ctx : ContextSchema) (w : World) (k : nat) (s : OverallState),
    exists u, login ctx w k s = Ok u.
Proof.
  intros ctx w k s. unfold login. cbv zeta. goal_cases; eexists; reflexivity.
Qed.

(** X4: when the username or the password is missing or empty, [login]
    returns [login_success = False] with the error "Missing username or
    password", whatever the browser would do (it is not used). *)
Theorem X4_login_missing_credentials :
  forall (ctx : ContextSchema) (w : World) (k : nat) (s : OverallState),
    negb (truthy (username ctx)) || negb (truthy (password ctx)) = true ->
    login ctx w k s = Ok [Set_login_success false; Set_error "Missing username or password"].
Proof.
  intros ctx w k s H. unfold login, truthy in *.
  destruct (username ctx) as [user|], (password ctx) as [pass|]; try reflexivity.
  simpl in H. rewrite !negb_involutive in H.
  destruct (String.eqb user "") eqn:Eu, (String.eqb pass "") eqn:Ep;
    simpl in H |- *; try reflexivity; discriminate H.
Qed.

Lemma X4_witness :
  negb (truthy (username ctx_no_password)) || negb (truthy (password ctx_no_password)) = true /\
  login ctx_no_password (stub_world true true) 3 login_form_state
  = Ok [Set_login_success false; Set_error "Missing username or password"].
Proof.
  split; [reflexivity|].
  apply X4_login_missing_credentials. reflexivity.
Defined.

(** X5: with credentials present, if filling the username field raises,
    [login] records [login_success = False] and the error text: for a
    [TimeoutError] "Timeout during login process: " followed by the message,
    for any other exception [str(e)]; [current_url] and [url_history]
    are left unchanged. *)
Theorem X5_login_interaction_failure :
  forall (ctx : ContextSchema) (w : World) (k : nat) (s : OverallState)
         (user pass us : string) (e : exn),
    username ctx = Some user -> password ctx = Some pass ->
    String.eqb user "" = false -> String.eqb pass "" = false ->
    username_selector s = Some us -> w_browse w k (Fill us user) = Raise e ->
    login ctx w k s
    = Ok [Set_login_success false;
          Set_error (match e with
                     | TimeoutError m => "Timeout during login process: " ++ m
                     | _ => exn_str e
                     end)].
Proof.
  intros ctx w k s user pass us e Hu Hp Eu Ep Hs Hb.
  unfold login. rewrite Hu, Hp, Eu, Ep. simpl. rewrite Hs. simpl. rewrite Hb.
  destruct e; reflexivity.
Qed.

Lemma X5_witness :
  username ctx_live = Some "me@example.com" /\ password ctx_live = Some "secret" /\
  String.eqb "me@example.com" "" = false /\ String.eqb "secret" "" = false /\
  username_selector login_form_state = Some "#u" /\
  w_browse broken_browser_world 3 (Fill "#u" "me@example.com")
  = Raise (BrowserError "Timeout 10000ms exceeded") /\
  login ctx_live broken_browser_world 3 login_form_state
  = Ok [Set_login_success false; Set_error "Timeout 10000ms exceeded"].
Proof.
  repeat (split; [reflexivity|]).
  exact (X5_login_interaction_failure ctx_live broken_browser_world 3 login_form_state
           "me@example.com" "secret" "#u" (BrowserError "Timeout 10000ms exceeded")
           eq_refl eq_refl eq_refl eq_refl eq_refl eq_refl).
Defined.

Lemma determine_url_href (href : option string) :
  determine_navigation_method href = NavUrl ->
  exists h, href = Some h /\ startswith_any (lower h) ["http://"; "https://"; "/"] = true.
Proof.
  destruct href as [h|]; unfold determine_navigation_method; [|discriminate].
  destruct (String.eqb h ""); [discriminate|]. cbv zeta.
  match goal with |- context [if str_in ?a ?b then _ else _] => destruct (str_in a b) end;
    [discriminate|].
  match goal with |- context [if startswith_any ?a ?b then _ else _] =>
    destruct (startswith_any a b) eqn:E end; [|discriminate].
  intros _; exists h; split; [reflexivity|exact E].
Qed.

(** X6: after [find_login_button], [current_url] is the page it loaded
    ([current_url] when non-empty, else [initial_url]), [navigation_method]
    is the resolver's decision for the recorded [login_href], and URL mode
    is only recorded for an href starting (in any case) with [http://],
    [https://] or [/]. *)
Theorem X6_find_login_button_consistent :
  forall (ctx : ContextSchema) (w : World) (k : nat) (s : OverallState) (u : update),
    find_login_button ctx w k s = Ok u ->
    let s' := apply_update s u in
    (exists url, current_or_initial_url s = Ok url /\ current_url s' = Some url) /\
    navigation_method s' = Some (determine_navigation_method (login_href s')) /\
    (navigation_method s' = Some NavUrl ->
       exists h, login_href s' = Some h /\
                 startswith_any (lower h) ["http://"; "https://"; "/"] = true).
Proof.
  intros ctx w k s u H. unfold find_login_button in H.
  unfold bind in H.
  destruct (current_or_initial_url s) as [url|] eqn:Eu; [|discriminate].
  destruct (w_browse w k (Goto url)); [|discriminate].
  destruct (w_evaluate w k); [|discriminate].
  destruct (if debug_mode ctx then Ok debug_login_selector else w_locate_login w k)
    as [resp|]; [|discriminate].
  injection H as <-. destruct s; simpl.
  split; [eexists; split; reflexivity|].
  split; [reflexivity|]. intros Hm; apply determine_url_href; congruence.
Qed.

Lemma X6_witness :
  find_login_button ctx_live (stub_world true true) 0 shop_input
  = Ok [Set_next_action_location (Some "#login");
        Set_login_href (Some "https://shop.example/login");
        Set_current_url "https://shop.example/";
        Set_navigation_method NavUrl] /\
  navigation_method (apply_update shop_input
      [Set_next_action_location (Some "#login");
       Set_login_href (Some "https://shop.example/login");
       Set_current_url "https://shop.example/";
       Set_navigation_method NavUrl])
  = Some (determine_navigation_method (login_href (apply_update shop_input
      [Set_next_action_location (Some "#login");
       Set_login_href (Some "https://shop.example/login");
       Set_current_url "https://shop.example/";
       Set_navigation_method NavUrl]))).
Proof.
  split; [reflexivity|].
  exact (proj1 (proj2 (X6_find_login_button_consistent ctx_live (stub_world true true) 0
                          shop_input _ eq_refl))).
Defined.

(** X7: the two navigation nodes only raise on a missing state key: a
    failing browser interaction never propagates.  [navigate_to_login]
    raises [KeyError 'navigation_method'] or [KeyError 'current_url'] when
    that key is absent, [navigate_to_change_email_section] only
    [KeyError 'current_url']. *)
Theorem X7_navigation_raises_only_key_errors :
  forall (urljoin : string -> string -> string) (w : World) (k : nat) (s : OverallState)
         (e : exn),
    (navigate_to_login urljoin w k s = Raise e ->
       (navigation_method s = None /\ e = KeyError "navigation_method") \/
       (current_url s = None /\ e = KeyError "current_url")) /\
    (navigate_to_change_email_section w k s = Raise e ->
       current_url s = None /\ e = KeyError "current_url").
Proof.
  intros urljoin w k s e; split; intros H.
  - unfold navigate_to_login, bind, req in H.
    destruct (navigation_method s); [|left; split; congruence].
    destruct (current_url s); [discriminate|right; split; congruence].
  - unfold navigate_to_change_email_section, bind, req in H.
    destruct (current_url s); [discriminate|split; congruence].
Qed.

Lemma X7_witness :
  navigate_to_login join_stub broken_browser_world 2 shop_input
  = Raise (KeyError "navigation_method") /\
  ((navigation_method shop_input = None /\
    KeyError "navigation_method" = KeyError "navigation_method") \/
   (current_url shop_input = None /\ KeyError "navigation_method" = KeyError "current_url")).
Proof.
  split; [reflexivity|].
  exact (proj1 (X7_navigation_raises_only_key_errors join_stub broken_browser_world 2
                  shop_input (KeyError "navigation_method")) eq_refl).
Defined.

(** X8: once [check_if_email_change_reached] has run, [retry_count] alone
    decides the route, whatever the classifier answered: below 3 the graph
    goes back to [find_change_email_access], from 3 on it ends. *)
Theorem X8_check_routes_on_retry_count :
  forall (urljoin : string -> string -> string) (ctx : ContextSchema) (w : World)
         (k : nat) (s : OverallState) (u : update),
    check_if_email_change_reached ctx w k s = Ok u ->
    (retry_value s < 3 ->
       step urljoin ctx w k (Running N_check_if_email_change_reached s)
       = Running N_find_change_email_access (apply_update s u)) /\
    (3 <= retry_value s ->
       step urljoin ctx w k (Running N_check_if_email_change_reached s)
       = Finished (apply_update s u)).
Proof.
  intros urljoin ctx w k s u H.
  cbn [step run_node route]. rewrite H.
  unfold check_if_email_change_reached, bind in H.
  destruct (w_evaluate w k); [|discriminate].
  destruct (if debug_mode ctx then Ok debug_email_analysis else w_judge_change_email w k)
    as [resp|]; [|discriminate].
  injection H as <-.
  unfold retry_value. destruct s; simpl.
  unfold should_retry_change_email_section, get_is_change_email_section_reached; simpl.
  split; intros Hr.
  - apply Z.ltb_lt in Hr. rewrite Hr. reflexivity.
  - apply Z.ltb_ge in Hr. rewrite Hr. reflexivity.
Qed.

Lemma X8_witness :
  check_if_email_change_reached ctx_live (stub_world true true) 6 change_email_pending
  = Ok [Set_is_change_email_section_reached true; Set_next_action_location None;
        Set_current_url "https://shop.example/account"] /\
  retry_value change_email_pending < 3 /\
  step join_stub ctx_live (stub_world true true) 6
    (Running N_check_if_email_change_reached change_email_pending)
  = Running N_find_change_email_access
      (apply_update change_email_pending
         [Set_is_change_email_section_reached true; Set_next_action_location None;
          Set_current_url "https://shop.example/account"]).
Proof.
  split; [reflexivity|]. split; [vm_compute; reflexivity|].
  apply (proj1 (X8_check_routes_on_retry_count join_stub ctx_live (stub_world true true) 6
                  change_email_pending _ eq_refl)).
  vm_compute; reflexivity.
Defined.




Lemma login_total (ctx : ContextSchema) (w : World) (k : nat) (s : OverallState) :
  exists u, login ctx w k s = Ok u.
Proof. unfold login. cbv zeta. goal_cases; eexists; reflexivity. Qed.

Lemma login_current_url (ctx : ContextSchema) (w : World) (k : nat) (s : OverallState)
  (u : update) (url : string) :
  login ctx w k s = Ok u -> current_url s = Some url ->
  exists url', current_url (apply_update s u) = Some url'.
Proof.
  intros H Hu. unfold login in H. cbv zeta in H. node_cases; destruct s; simpl in *; eauto.
Qed.

Lemma debug_run_seven (urljoin : string -> string -> string) (ctx : ContextSchema)
  (w : World) (name url : string) :
  debug_mode ctx = true ->
  (forall k, w_evaluate w k = Ok tt) ->
  (forall k u, w_browse w k (Goto u) = Ok tt) ->
  exists s,
    run urljoin ctx w 7 0 (initial_config (input_state name (Some url)))
    = Running N_find_change_email_access s /\
    executed urljoin ctx w 7 0 (initial_config (input_state name (Some url)))
    = [N_find_login_button; N_navigate_to_login; N_analyze_page; N_login;
       N_find_change_email_access; N_navigate_to_change_email_section;
       N_check_if_email_change_reached] /\
    retry_count s = Some 1 /\ exists u, current_url s = Some u.
Proof.
  intros Hd Hev Hgo.
  unfold initial_config, start_node, is_url_missing.
  do 3 (cbn [run executed step run_node route];
        unfold find_login_button, navigate_to_login, analyze_page,
          should_retry_look_for_login, bind, req; simpl;
        rewrite ?Hgo, ?Hev, ?Hd; simpl).
  match goal with |- context [login ?c ?w ?k ?s] =>
    destruct (login_total c w k s) as [u Hu];
    destruct (login_current_url c w k s u _ Hu eq_refl) as [y Hy];
    pose proof (run_node_retry_count urljoin c w k N_login s u Hu) as Hr;
    rewrite Hu; remember (apply_update s u) as s4 eqn:Es4 end.
  simpl in Hr. clear Es4 Hu. destruct s4; simpl in Hy, Hr; subst.
  do 3 (cbn [run executed step run_node route];
        unfold find_change_email_access, navigate_to_change_email_section,
          check_if_email_change_reached, should_retry_change_email_section,
          get_is_change_email_section_reached, bind, req; simpl;
        rewrite ?Hy, ?Hev, ?Hd; simpl).
  eexists; split; [reflexivity|]. split; [reflexivity|]. split; [reflexivity|].
  eexists; reflexivity.
Qed.

Lemma debug_cycle_step (urljoin : string -> string -> string) (ctx : ContextSchema)
  (w : World) (k : nat) (c : config) :
  debug_mode ctx = true -> (forall k, w_evaluate w k = Ok tt) ->
  in_change_email_cycle c -> in_change_email_cycle (step urljoin ctx w k c).
Proof.
  intros Hd Hev (n & s & -> & Hn & Hr & u & Hu).
  destruct s; simpl in Hr, Hu; subst.
  destruct Hn as [ E | [ E | E ] ]; subst n; cbn [step run_node route].
  - unfold find_change_email_access, bind, req; simpl. rewrite Hev, Hd; simpl.
    eexists; eexists; split; [reflexivity|].
    split; [right; left; reflexivity|]. split; [reflexivity|]. eexists; reflexivity.
  - unfold navigate_to_change_email_section, bind, req; simpl.
    eexists; eexists; split; [reflexivity|].
    split; [right; right; reflexivity|]. split; [reflexivity|]. eexists; reflexivity.
  - unfold check_if_email_change_reached, bind; simpl. rewrite Hev, Hd; simpl.
    eexists; eexists; split; [reflexivity|].
    split; [left; reflexivity|]. split; [reflexivity|]. eexists; reflexivity.
Qed.

(** X9: with [debug_mode] on (as graph.py runs it), a page that always
    evaluates and a browser whose [goto] succeeds, a run started from a
    given [initial_url] executes each node from [find_login_button] to
    [check_if_email_change_reached] once in its first seven steps, with
    [retry_count] ending at 1, and then never ends, whatever the website,
    the credentials or the login outcome: the check's "reached" verdict is
    discarded and [retry_count] stays 1, so the change-email loop repeats
    forever. *)
Theorem X9_debug_run_never_ends :
  forall (urljoin : string -> string -> string) (ctx : ContextSchema) (w : World)
         (name url : string),
    debug_mode ctx = true ->
    (forall k, w_evaluate w k = Ok tt) ->
    (forall k u, w_browse w k (Goto u) = Ok tt) ->
    executed urljoin ctx w 7 0 (initial_config (input_state name (Some url)))
    = [N_find_login_button; N_navigate_to_login; N_analyze_page; N_login;
       N_find_change_email_access; N_navigate_to_change_email_section;
       N_check_if_email_change_reached] /\
    forall n, exists nd s,
      run urljoin ctx w (7 + n) 0 (initial_config (input_state name (Some url)))
      = Running nd s /\ retry_count s = Some 1.
Proof.
  intros urljoin ctx w name url Hd Hev Hgo.
  destruct (debug_run_seven urljoin ctx w name url Hd Hev Hgo) as (s & E & Ex & Hr & Hu).
  split; [exact Ex|]. intros n.
  rewrite run_add, E.
  assert (Hc : in_change_email_cycle (Running N_find_change_email_access s)).
  { exists N_find_change_email_access, s. split; [reflexivity|].
    split; [left; reflexivity|]. split; [exact Hr | exact Hu]. }
  assert (Hall : forall m k c, in_change_email_cycle c ->
                   in_change_email_cycle (run urljoin ctx w m k c)).
  { induction m as [|m IH]; intros k c H; [exact H|].
    simpl. apply IH, debug_cycle_step; assumption. }
  destruct (Hall n (0 + 7)%nat _ Hc) as (nd & s' & E' & _ & Hr' & _).
  exists nd, s'. split; [exact E' | exact Hr'].
Qed.

Lemma X9_witness :
  debug_mode ctx_debug = true /\
  (forall k, w_evaluate (stub_world false false) k = Ok tt) /\
  (forall k u, w_browse (stub_world false false) k (Goto u) = Ok tt) /\
  executed join_stub ctx_debug (stub_world false false) 7 0
    (initial_config (input_state "Agrosemens" (Some "https://www.agrosemens.com/")))
  = [N_find_login_button; N_navigate_to_login; N_analyze_page; N_login;
     N_find_change_email_access; N_navigate_to_change_email_section;
     N_check_if_email_change_reached] /\
  forall n, exists nd s,
    run join_stub ctx_debug (stub_world false false) (7 + n) 0
      (initial_config (input_state "Agrosemens" (Some "https://www.agrosemens.com/")))
    = Running nd s /\ retry_count s = Some 1.
Proof.
  split; [reflexivity|]. split; [intros k; reflexivity|]. split; [intros k u; reflexivity|].
  apply X9_debug_run_never_ends; [reflexivity | intros k; reflexivity | intros k u; reflexivity].
Defined.

(** X11: [verify_login_success] never reports success while an error
    message is visible ([no_errors] false), and never when the URL did not
    change in the sense of [url_changed] (same URL, or one still containing
    "/login") while the password field is still visible. *)
Theorem X11_verify_login_blocked :
  forall (initial_url new_url : string) (p : login_probes),
    (probe_no_errors p = Ok false -> verify_login_success initial_url new_url p = false) /\
    ((new_url = initial_url \/ contains (lower new_url) "/login" = true) ->
       probe_form_disappeared p = Ok false ->
       verify_login_success initial_url new_url p = false).
Proof.
  intros i n [pf pe ps]; simpl; split.
  - intros ->. unfold verify_login_success; simpl.
    destruct pf as [f|]; simpl; [|reflexivity].
    destruct ps as [b|]; simpl; [|reflexivity].
    unfold login_decision. rewrite !andb_false_r. reflexivity.
  - intros Hu ->. unfold verify_login_success; simpl.
    assert (Hc : url_changed i n = false).
    { unfold url_changed. destruct Hu as [->|Hc].
      - rewrite String.eqb_refl. reflexivity.
      - rewrite Hc, andb_false_r. reflexivity. }
    rewrite Hc.
    destruct pe as [e|]; simpl; [|reflexivity].
    destruct ps as [b|]; simpl; [|reflexivity].
    unfold login_decision. rewrite !andb_false_r. simpl. destruct b, e; reflexivity.
Qed.

Lemma X11_witness :
  contains (lower "https://shop.example/login?next=/account") "/login" = true /\
  verify_login_success "https://shop.example/login" "https://shop.example/login?next=/account"
    {| probe_form_disappeared := Ok false; probe_no_errors := Ok true;
       probe_success_indicators := Ok true |} = false.
Proof.
  split; [reflexivity|].
  apply (proj2 (X11_verify_login_blocked "https://shop.example/login"
                  "https://shop.example/login?next=/account"
                  {| probe_form_disappeared := Ok false; probe_no_errors := Ok true;
                     probe_success_indicators := Ok true |})).
  - right; reflexivity.
  - reflexivity.
Defined.

(** X12: [BraveProvider.search] returns the empty list for any response
    whose status code is not 200, without reading its body (even a body
    whose [.json()] would raise). *)
Theorem X12_brave_non_200_empty :
  forall (requests_get : http_request -> outcome http_response) (api_key query : string)
         (num_results : Z) (r : http_response),
    requests_get (brave_request api_key query) = Ok r -> status_code r <> 200 ->
    brave_search requests_get api_key query num_results = Ok [].
Proof.
  intros rg key q n r Hr Hs. unfold brave_search, bind. rewrite Hr.
  apply Z.eqb_neq in Hs. rewrite Hs. reflexivity.
Qed.

Lemma X12_witness :
  brave_search (fun _ => Ok {| status_code := 429; json_body := Raise (TypeError "not JSON") |})
    "key" "agrosemens" 5 = Ok [].
Proof.
  apply (X12_brave_non_200_empty
           (fun _ => Ok {| status_code := 429; json_body := Raise (TypeError "not JSON") |})
           "key" "agrosemens" 5 {| status_code := 429; json_body := Raise (TypeError "not JSON") |});
    [reflexivity | discriminate].
Defined.

Lemma map_outcome_length {A B} (f : A -> outcome B) (l : list A) (l' : list B) :
  map_outcome f l = Ok l' -> length l' = length l.
Proof.
  revert l'; induction l as [|x l IH]; intros l' H; simpl in H.
  - injection H as <-; reflexivity.
  - unfold bind in H. destruct (f x) as [y|]; [|discriminate].
    destruct (map_outcome f l) as [ys|]; [|discriminate].
    injection H as <-. simpl. f_equal. apply IH; reflexivity.
Qed.

(** X13: for a non-negative [num_results], [BraveProvider.search] returns
    at most [num_results] URLs ([web_results[:num_results]]), whatever the
    response. *)
Theorem X13_brave_at_most_num_results :
  forall (requests_get : http_request -> outcome http_response) (api_key query : string)
         (num_results : Z) (l : list json),
    0 <= num_results ->
    brave_search requests_get api_key query num_results = Ok l ->
    (length l <= Z.to_nat num_results)%nat.
Proof.
  intros rg key q n l Hn H. unfold brave_search, bind in H.
  destruct (rg (brave_request key q)) as [r|]; [|discriminate].
  destruct (negb (status_code r =? 200)).
  - injection H as <-. simpl. lia.
  - destruct (json_body r) as [j|]; [|discriminate].
    unfold brave_extract, bind in H.
    destruct (dict_get j "web" (JObj [])) as [web|]; [|discriminate].
    destruct (dict_get web "results" (JArr [])) as [wr|]; [|discriminate].
    destruct (slice_results wr n) as [items|] eqn:Es; [|discriminate].
    apply map_outcome_length in H. rewrite H.
    assert (Hp : forall {A} (xs : list A), (length (py_slice_upto n xs) <= Z.to_nat n)%nat).
    { intros A xs. unfold py_slice_upto. apply Z.leb_le in Hn. rewrite Hn.
      rewrite length_firstn. lia. }
    destruct wr; simpl in Es; try discriminate.
    + destruct (py_slice_upto n (list_ascii_of_string s)); [|discriminate].
      injection Es as <-. simpl. lia.
    + injection Es as <-. apply Hp.
Qed.

Lemma X13_witness :
  brave_search (fun _ => Ok brave_test_response) "key" "agrosemens" 1
  = Ok [JStr "https://brave-result.com/1"] /\
  (length [JStr "https://brave-result.com/1"] <= Z.to_nat 1)%nat.
Proof.
  split; [reflexivity|].
  apply (X13_brave_at_most_num_results (fun _ => Ok brave_test_response) "key" "agrosemens" 1);
    [lia | reflexivity].
Defined.



(** X15: when [context.page.close()] raises in the [finally] clause, its
    exception replaces the body's outcome (even a normal one), the browser
    is never closed and the three handles keep their values; when
    [chromium.launch] raises, [context.playwright] keeps the stopped
    Playwright object and the body never runs. *)
Theorem X15_playwright_session_failures :
  forall {A} (sw : session_world) (f0 : pw_fields) (body : outcome A) (p : nat) (e : exn),
    sw_start sw = Ok p ->
    (forall b pg,
       sw_launch sw = Ok b -> sw_new_page sw = Ok pg -> sw_close_page sw = Raise e ->
       match playwright_session sw f0 body with
       | (f, evs, r) =>
           r = Raise e /\ ~ In Ev_close_browser evs /\
           f = mkFields (Some p) (Some b) (Some pg)
       end) /\
    (sw_launch sw = Raise e ->
       match playwright_session sw f0 body with
       | (f, evs, r) =>
           r = Raise e /\ ~ In Ev_body evs /\ f_playwright f = Some p /\
           f_browser f = f_browser f0
       end).
Proof.
  intros A sw f0 body p e Hs. unfold playwright_session. rewrite Hs. split.
  - intros b pg Hl Hp Hc. rewrite Hl, Hp, Hc.
    split; [reflexivity|]. split; [simpl; intuition discriminate | reflexivity].
  - intros Hl. rewrite Hl.
    split; [reflexivity|]. split; [simpl; intuition discriminate | split; reflexivity].
Qed.

Lemma X15_witness :
  match playwright_session pw_page_close_fails (mkFields None None None) (Ok 42) with
  | (f, evs, r) =>
      r = Raise (BrowserError "Target page, context or browser has been closed") /\
      ~ In Ev_close_browser evs /\ f = mkFields (Some 1%nat) (Some 2%nat) (Some 3%nat)
  end.
Proof.
  apply (proj1 (X15_playwright_session_failures pw_page_close_fails (mkFields None None None)
                  (Ok 42) 1%nat (BrowserError "Target page, context or browser has been closed")
                  eq_refl) 2%nat 3%nat); reflexivity.
Defined.

(** X16: a step of the graph crashes only when the node itself raises, and
    the crashed run keeps the state from before that node: the conditional
    edge after [analyze_page] always finds the [is_login_page_reached] and
    [retry_count] keys the node has just written, and the other edges
    cannot fail. *)
Theorem X16_crash_only_from_node :
  forall (urljoin : string -> string -> string) (ctx : ContextSchema) (w : World)
         (k : nat) (n : node) (s s' : OverallState) (e : exn),
    step urljoin ctx w k (Running n s) = Crashed e s' ->
    s' = s /\ run_node urljoin ctx w k n s = Raise e.
Proof.
  intros urljoin ctx w k n s s' e H. simpl in H.
  destruct (run_node urljoin ctx w k n s) as [u|e'] eqn:R.
  - exfalso. pose proof (run_node_retry_count urljoin ctx w k n s u R) as Hr.
    destruct n; simpl in H; try discriminate.
    + destruct Hr as [Hc [r Hl]].
      unfold should_retry_look_for_login, bind in H. rewrite Hl, Hc in H.
      destruct r; simpl in H; [|destruct (retry_value s + 1 <? 3)]; discriminate.
    + destruct (should_retry_change_email_section (apply_update s u)); discriminate.
  - injection H as <- <-. split; reflexivity.
Qed.

Lemma X16_witness :
  step join_stub ctx_live broken_browser_world 0 (Running N_find_login_button shop_input)
  = Crashed (BrowserError "Timeout 10000ms exceeded") shop_input /\
  shop_input = shop_input /\
  run_node join_stub ctx_live broken_browser_world 0 N_find_login_button shop_input
  = Raise (BrowserError "Timeout 10000ms exceeded").
Proof.
  split; [reflexivity|].
  exact (X16_crash_only_from_node join_stub ctx_live broken_browser_world 0
           N_find_login_button shop_input shop_input (BrowserError "Timeout 10000ms exceeded")
           eq_refl).
Defined.
